(** * docQuest: the document analysis pipeline of [utils/pdf_processing.py]
    and [utils/llm_interaction.py], with the older classifier of
    [pdf_processing.py].

    Python values are modelled as follows.
    - an exception is a value of [exn]; a computation that may raise returns
      [res A];
    - the HTTP backend ([requests.post]) is a function from the JSON payload
      to the response it yields, so every call is deterministic given it;
    - a PyMuPDF page is a record of what the code reads from it; geometry is
      in [Q];
    - a dict used as a record with fixed keys is a Rocq record; the
      [documents] dict of [ask_question] is an association list kept in
      insertion order (Python dicts iterate in insertion order). *)

From Stdlib Require Import String Ascii List Bool Arith Lia ZArith QArith
  Permutation Sorted.
Import ListNotations.
Open Scope nat_scope.
Open Scope string_scope.

(* ------------------------------------------------------------------ *)
(** ** Python exceptions and fallible results *)

Inductive exn :=
| RequestException          (** [requests.exceptions.RequestException] and
                                its subclasses: ConnectionError, Timeout,
                                HTTPError, JSONDecodeError *)
| IndexError
| ZeroDivisionError
| PageError                 (** whatever PyMuPDF raises on a damaged page *)
| ValueError (msg : string)
| GenericException (msg : string).

Inductive res (A : Type) :=
| Ok (a : A)
| Raise (e : exn).
Arguments Ok {A} a.
Arguments Raise {A} e.

(* ------------------------------------------------------------------ *)
(** ** Python string helpers *)

(** Characters [str.split()] and [str.strip()] treat as whitespace among
    code points 0..255. *)
Definition is_space (c : ascii) : bool :=
  match nat_of_ascii c with
  | 9 | 10 | 11 | 12 | 13 | 28 | 29 | 30 | 31 | 32 | 133 | 160 => true
  | _ => false
  end.

Fixpoint lstrip (s : string) : string :=
  match s with
  | EmptyString => EmptyString
  | String c r => if is_space c then lstrip r else s
  end.

Fixpoint rev_string (s : string) (acc : string) : string :=
  match s with
  | EmptyString => acc
  | String c r => rev_string r (String c acc)
  end.

(** [s.strip()] *)
Definition strip (s : string) : string :=
  rev_string (lstrip (rev_string (lstrip s) EmptyString)) EmptyString.

(** [s.split()]: maximal runs of non-whitespace characters. *)
Fixpoint split_words (s : string) (cur : string) : list string :=
  match s with
  | EmptyString =>
      match cur with EmptyString => [] | _ => [rev_string cur EmptyString] end
  | String c r =>
      if is_space c then
        match cur with
        | EmptyString => split_words r EmptyString
        | _ => rev_string cur EmptyString :: split_words r EmptyString
        end
      else split_words r (String c cur)
  end.

(** [sep.join(xs)] *)
Fixpoint join (sep : string) (xs : list string) : string :=
  match xs with
  | [] => ""
  | [x] => x
  | x :: r => x ++ sep ++ join sep r
  end.

(** [remove_stopwords_and_blanks] *)
Definition remove_stopwords_and_blanks (text : string) : string :=
  join " " (split_words text EmptyString).

(** Decimal rendering of a non-negative int in an f-string. *)
Fixpoint digits_aux (fuel n : nat) (acc : string) : string :=
  match fuel with
  | 0 => acc
  | S f =>
      let acc' := String (ascii_of_nat (48 + n mod 10)) acc in
      if Nat.ltb n 10 then acc' else digits_aux f (Nat.div n 10) acc'
  end.

Definition str_of_nat (n : nat) : string := digits_aux (S n) n EmptyString.

Definition nl : string := String (ascii_of_nat 10) EmptyString.
Definition dq : string := String (ascii_of_nat 34) EmptyString.

(** [s is truthy] for a str *)
Definition str_truthy (s : string) : bool :=
  match s with EmptyString => false | _ => true end.

Example str_of_nat_ex : str_of_nat 120 = "120".
Proof. reflexivity. Qed.

Example remove_blanks_ex :
  remove_stopwords_and_blanks ("  a  b" ++ nl ++ "c ") = "a b c".
Proof. reflexivity. Qed.

Example strip_ex : strip (" x y" ++ nl) = "x y".
Proof. reflexivity. Qed.

(* ------------------------------------------------------------------ *)
(** ** The chat-completion backend *)

(** JSON content of a message: a plain string, a list of parts (text and
    image URL) or a nested dict of strings. *)
Inductive part :=
| TextPart (text : string)
| ImageUrlPart (url : string).

Inductive content :=
| CText (s : string)
| CParts (ps : list part)
| CDict (kv : list (string * string)).

Record message := { role : string; mcontent : content }.

(** The [data] dict posted to [/chat/completions]; the model name comes from
    the configuration and is the same for every call. *)
Record payload := { messages : list message; temperature : Q }.

(** The decoded response body: not JSON at all, or a JSON object whose
    ['choices'] key is absent ([None]) or a list whose entries carry the
    [message.content] string when present. Bodies of other shapes (a JSON
    [null] or array, a [null] ['choices'], [null] entries or messages, a
    [null] content) are not represented. *)
Inductive json_body :=
| JInvalid
| JObj (choices : option (list (option string))).

(** What [requests.post(..., timeout=10)] produces. *)
Inductive http_response :=
| ConnError
| TimeoutError
| Resp (status : Z) (body : json_body).

(** [response.raise_for_status()] raises [HTTPError] for 4xx and 5xx. *)
Definition raise_for_status (status : Z) : bool :=
  ((400 <=? status) && (status <? 600))%Z.

(** The common tail of every call:
    [requests.post(...)]; [response.raise_for_status()];
    [response.json().get('choices', [{}])[0].get('message', {}).get('content', default)]. *)
Definition post_and_extract (post : payload -> http_response) (data : payload)
    (default : string) : res string :=
  match post data with
  | ConnError | TimeoutError => Raise RequestException
  | Resp status body =>
      if raise_for_status status then Raise RequestException
      else
        match body with
        | JInvalid => Raise RequestException
        | JObj None => Ok default
        | JObj (Some []) => Raise IndexError
        | JObj (Some (c :: _)) =>
            Ok (match c with Some s => s | None => default end)
        end
  end.

(** [get_image_explanation] *)
Definition image_payload (base64_image : string) : payload :=
  {| messages :=
       [ {| role := "system";
            mcontent := CText "You are a helpful assistant that responds in Markdown." |};
         {| role := "user";
            mcontent := CParts
              [ TextPart "Explain the content of this image. The explanation should be concise and semantically meaningful. Do not make assumptions about the specification of the image and be acuurate in your explaination.";
                ImageUrlPart ("data:image/png;base64," ++ base64_image) ] |} ];
     temperature := 0%Q |}.

Definition get_image_explanation (post : payload -> http_response)
    (base64_image : string) : res string :=
  match post_and_extract post (image_payload base64_image) "No explanation provided." with
  | Raise RequestException =>
      Ok "Error: Unable to fetch image explanation due to network issues or API error."
  | r => r
  end.

(** [SystemPromptOutput], the pydantic model of a persona. *)
Record SystemPromptOutput := {
  document : string; domain : string; subject : string; expertise : string;
  qualification : string; style : string; tone : string; voice : string }.

(** The Python values [generate_system_prompt] and its caller handle. *)
Inductive pyobj :=
| PyModel (p : SystemPromptOutput)
| PyStr (s : string)
| PyDict (kv : list (string * string)).

Definition jline (k v : string) (last : bool) : string :=
  "                " ++ dq ++ k ++ dq ++ ": " ++ dq ++ v ++ dq
  ++ (if last then "" else ",") ++ nl.

Definition persona_request (document_content : string) : string :=
  nl ++
  "            Analyze the following document content and determine the expertise required to summarize it accurately." ++ nl ++
  "            Additionally, generate a suitable system prompt with the appropriate tone, style, and voice that should be used" ++ nl ++
  "            to summarize this document:" ++ nl ++ nl ++
  "            Content: " ++ document_content ++ nl ++ nl ++
  "            Output the system prompt in this format as a JSON object:" ++ nl ++ nl ++
  "            {" ++ nl ++
  jline "document" "example_document" false ++
  jline "domain" "Aerospace engineering" false ++
  jline "subject" "aerodynamics" false ++
  jline "expertise" "technical" false ++
  jline "qualification" "Master in Aerospace engineering" false ++
  jline "style" "Professional" false ++
  jline "tone" "Formal" false ++
  jline "voice" "neutral" true ++
  "            }" ++ nl ++
  "            ".

Definition persona_payload (document_content : string) : payload :=
  {| messages :=
       [ {| role := "system";
            mcontent := CText "You are an expert in generating system prompts based on document content." |};
         {| role := "user"; mcontent := CText (persona_request document_content) |} ];
     temperature := (1 # 2)%Q |}.

(** [generate_system_prompt]; [parse_raw] is pydantic's
    [SystemPromptOutput.parse_raw]: the parsed model, or the text of the
    [ValidationError] it raises. *)
Definition generate_system_prompt (post : payload -> http_response)
    (parse_raw : string -> SystemPromptOutput + string)
    (document_content : string) : res pyobj :=
  match post_and_extract post (persona_payload document_content) "" with
  | Ok prompt_response =>
      match parse_raw prompt_response with
      | inl out => Ok (PyModel out)
      | inr err =>
          Ok (PyStr ("Error: Unable to parse the system prompt output. Validation error: " ++ err))
      end
  | Raise RequestException =>
      Ok (PyStr "Error: Unable to generate system prompt due to network issues or API error.")
  | Raise e => Raise e
  end.

(** [summarize_page] *)
Definition summarize_prompt (page_text previous_summary : string)
    (page_number : nat) : string :=
  "Please rewrite the following page content from (Page " ++ str_of_nat page_number
  ++ ") along with context from the previous page summary "
  ++ "to make them concise and well-structured. Maintain proper listing and referencing of the contents if present."
  ++ "Do not add any new information or make assumptions. Keep the meaning accurate and the language clear." ++ nl ++ nl
  ++ "Previous page summary: " ++ previous_summary ++ nl ++ nl
  ++ "Current page content:" ++ nl ++ page_text ++ nl.

Definition summarize_payload (page_text previous_summary : string)
    (page_number : nat) (system_prompt : content) : payload :=
  {| messages :=
       [ {| role := "system"; mcontent := system_prompt |};
         {| role := "user";
            mcontent := CText (summarize_prompt page_text previous_summary page_number) |} ];
     temperature := 0%Q |}.

Definition summarize_page (post : payload -> http_response)
    (page_text previous_summary : string) (page_number : nat)
    (system_prompt : content) : res string :=
  match post_and_extract post
          (summarize_payload page_text previous_summary page_number system_prompt)
          "No summary provided." with
  | Ok s => Ok (strip s)
  | Raise RequestException =>
      Ok ("Error: Unable to summarize page " ++ str_of_nat page_number
          ++ " due to network issues or API error.")
  | Raise e => Raise e
  end.

(* ------------------------------------------------------------------ *)
(** ** PDF pages and the classifier *)

(** What the code reads from a PyMuPDF page: [get_text("text")], the number
    of [get_images(full=True)] entries, the [get_text("blocks")] rectangles
    [(x0, y0, x1, y1)], the number of [get_drawings()] entries, [rect.width],
    [rect.height], and the base64 text of the rendered PNG
    ([get_pixmap().tobytes("png")] then [base64.b64encode]), [None] when
    rendering raises. *)
Record pdf_page := {
  ptext : string;
  pimages : nat;
  pblocks : list (Q * Q * Q * Q);
  pdrawings : nat;
  pwidth : Q;
  pheight : Q;
  ppix : option string }.

(** An opened document: one entry per page, [None] for a page whose loading
    or text extraction raises. *)
Definition pdf_doc := list (option pdf_page).

(** [pdf_document.load_page(n)] *)
Definition load_page (pdf : pdf_doc) (n : nat) : res pdf_page :=
  match nth_error pdf n with
  | Some (Some pg) => Ok pg
  | Some None => Raise PageError
  | None => Raise (ValueError "page not in document")
  end.

Definition Qltb (x y : Q) : bool := negb (Qle_bool y x).

(** Python's [/] on floats. *)
Definition py_div (x y : Q) : res Q :=
  if Qeq_bool y 0 then Raise ZeroDivisionError else Ok (x / y)%Q.

Definition block_area (b : Q * Q * Q * Q) : Q :=
  let '(x0, y0, x1, y1) := b in ((x1 - x0) * (y1 - y0))%Q.

Definition page_area (pg : pdf_page) : Q := (pwidth pg * pheight pg)%Q.

Definition text_area (pg : pdf_page) : Q :=
  fold_right Qplus 0%Q (map block_area (pblocks pg)).

(** [text_area / page_area if page_area > 0 else 0] *)
Definition text_coverage (pg : pdf_page) : res Q :=
  if Qltb 0 (page_area pg) then py_div (text_area pg) (page_area pg) else Ok 0%Q.

(** [detect_ocr_images_and_vector_graphics_in_pdf] of
    [utils/pdf_processing.py]: the base64 image when the page is flagged,
    [None] otherwise; every exception is logged and turned into [None]. *)
Definition detect_ocr_images_and_vector_graphics_in_pdf (pg : pdf_page)
    (ocr_text_threshold : Q) : option string :=
  match text_coverage pg with
  | Raise _ => None
  | Ok cov =>
      match ppix pg with
      | None => None
      | Some base64_image =>
          if (Nat.ltb 0 (pimages pg) || Nat.ltb 0 (pdrawings pg))
             && Qltb cov ocr_text_threshold
          then Some base64_image else None
      end
  end.

(** [detect_ocr_images_and_vector_graphics_in_pdf] of the top-level
    [pdf_processing.py]: no [try], and the division is not guarded. *)
Definition detect_legacy (pdf : pdf_doc) (page_number : nat)
    (ocr_text_threshold : Q) : res (option (nat * string)) :=
  match load_page pdf page_number with
  | Raise e => Raise e
  | Ok pg =>
      if (Nat.ltb 0 (pimages pg) || Nat.ltb 0 (pdrawings pg))
         && str_truthy (strip (ptext pg)) then
        match py_div (text_area pg) (page_area pg) with
        | Raise e => Raise e
        | Ok cov =>
            if Qltb cov ocr_text_threshold then
              match ppix pg with
              | None => Raise PageError
              | Some base64_image => Ok (Some (S page_number, base64_image))
              end
            else Ok None
        end
      else Ok None
  end.

(* ------------------------------------------------------------------ *)
(** ** Batches of pages *)

(** A page entry of [document_data["pages"]]; [image_analysis] holds the
    [{"page_number", "explanation"}] dicts as pairs. *)
Record page_rec := {
  page_number : nat;
  full_text : string;
  text_summary : string;
  image_analysis : list (nat * string) }.

Definition error_text : string := "Error in processing this page".

(** The entry appended by the [except] branch of [process_page_batch]. *)
Definition error_record (n : nat) : page_rec :=
  {| page_number := S n; full_text := ""; text_summary := error_text;
     image_analysis := [] |}.

(** One call of [summarize_page] made by [process_page_batch]: its
    [page_number] and [previous_summary] arguments and its outcome. *)
Record call := { c_page : nat; c_prev : string; c_result : res string }.

(** The body of the [try] in the loop of [process_page_batch] for page index
    [n], run with [previous_summary = prev]. It returns the value of
    [previous_summary] afterwards (the assignment made before a later
    exception stays in effect), the [summarize_page] calls it made, and the
    record it builds or the exception it raises. *)
Definition page_body (post : payload -> http_response) (pdf : pdf_doc)
    (system_prompt : content) (ocr_text_threshold : Q) (n : nat)
    (prev : string) : string * list call * res page_rec :=
  match load_page pdf n with
  | Raise e => (prev, [], Raise e)
  | Ok pg =>
      let text := strip (ptext pg) in
      let preprocessed_text := remove_stopwords_and_blanks text in
      let r := summarize_page post preprocessed_text prev (S n) system_prompt in
      let cs := [ {| c_page := S n; c_prev := prev; c_result := r |} ] in
      match r with
      | Raise e => (prev, cs, Raise e)
      | Ok summary =>
          match detect_ocr_images_and_vector_graphics_in_pdf pg ocr_text_threshold with
          | Some image_data =>
              if str_truthy image_data then
                match get_image_explanation post image_data with
                | Raise e => (summary, cs, Raise e)
                | Ok image_explanation =>
                    (summary, cs,
                     Ok {| page_number := S n; full_text := text;
                           text_summary := summary;
                           image_analysis := [(S n, image_explanation)] |})
                end
              else
                (summary, cs,
                 Ok {| page_number := S n; full_text := text;
                       text_summary := summary; image_analysis := [] |})
          | None =>
              (summary, cs,
               Ok {| page_number := S n; full_text := text;
                     text_summary := summary; image_analysis := [] |})
          end
      end
  end.

(** The [for page_number in batch] loop with its [try]/[except]. *)
Fixpoint batch_loop (post : payload -> http_response) (pdf : pdf_doc)
    (system_prompt : content) (ocr_text_threshold : Q) (prev : string)
    (batch : list nat) : list page_rec * list call :=
  match batch with
  | [] => ([], [])
  | n :: rest =>
      let '(prev', cs, out) :=
        page_body post pdf system_prompt ocr_text_threshold n prev in
      let entry := match out with Ok r => r | Raise _ => error_record n end in
      let '(entries, cs') :=
        batch_loop post pdf system_prompt ocr_text_threshold prev' rest in
      (entry :: entries, (cs ++ cs')%list)
  end.

(** [process_page_batch]: the [batch_data] list, with the [summarize_page]
    calls made. *)
Definition process_page_batch (post : payload -> http_response) (pdf : pdf_doc)
    (batch : list nat) (system_prompt : content) (ocr_text_threshold : Q)
    : list page_rec * list call :=
  batch_loop post pdf system_prompt ocr_text_threshold "" batch.

(** [range(start, stop)] *)
Definition py_range (start stop : nat) : list nat := seq start (stop - start).

(** [range(start, stop, step)] for [step > 0]: its length is
    [max(0, (stop - start + step - 1) // step)]. *)
Definition py_range_step (start stop step : nat) : list nat :=
  map (fun j => start + j * step)
      (seq 0 (Nat.div (stop - start + step - 1) step)).

Definition batch_size : nat := 5.

(** [page_batches] *)
Definition page_batches (total_pages : nat) : list (list nat) :=
  map (fun i => py_range i (Nat.min (i + batch_size) total_pages))
      (py_range_step 0 total_pages batch_size).

Example page_batches_12 :
  page_batches 12 = [[0;1;2;3;4]; [5;6;7;8;9]; [10;11]].
Proof. reflexivity. Qed.

(** [list.sort(key=lambda x: x["page_number"])]: a stable sort, here
    insertion of each element after those with a key not greater. *)
Fixpoint insert_by_page (r : page_rec) (l : list page_rec) : list page_rec :=
  match l with
  | [] => [r]
  | x :: xs =>
      if Nat.ltb (page_number r) (page_number x) then r :: l
      else x :: insert_by_page r xs
  end.

Definition sort_by_page (l : list page_rec) : list page_rec :=
  fold_left (fun acc r => insert_by_page r acc) l [].

(* ------------------------------------------------------------------ *)
(** ** [process_pdf_pages] *)

(** [d.get(k, default)] on a dict of strings. *)
Fixpoint dict_get (kv : list (string * string)) (k default : string) : string :=
  match kv with
  | [] => default
  | (k', v) :: r => if String.eqb k k' then v else dict_get r k default
  end.

Definition default_system_prompt : content :=
  CDict [("role", "system");
         ("content", "Default system prompt. The system prompt could not be generated.")].

(** The [if isinstance(system_prompt_data, dict)] step. *)
Definition build_system_prompt (system_prompt_data : pyobj) : content :=
  match system_prompt_data with
  | PyDict d =>
      let domain := dict_get d "domain" "General" in
      let subject := dict_get d "subject" "General topic" in
      let expertise := dict_get d "expertise" "General knowledge" in
      let qualification := dict_get d "qualification" "No qualification specified" in
      let style := dict_get d "style" "Informal" in
      let tone := dict_get d "tone" "Neutral" in
      let voice := dict_get d "voice" "Neutral" in
      CDict [("role", "system");
             ("content",
              "You are an expert in " ++ domain ++ " " ++ subject
              ++ " with an expertise in " ++ expertise ++ " and qualification of "
              ++ qualification ++ ". "
              ++ "Your response should be " ++ style ++ ", " ++ tone
              ++ ", and in a " ++ voice ++ " voice.")]
  | _ => default_system_prompt
  end.

(** The text of the first pages, for the persona request. *)
Fixpoint sample_content (pdf : pdf_doc) (page_nums : list nat) (acc : string)
    : res string :=
  match page_nums with
  | [] => Ok acc
  | n :: r =>
      match load_page pdf n with
      | Raise e => Raise e
      | Ok pg => sample_content pdf r (acc ++ ptext pg)
      end
  end.

Record document_data := { document_name : string; pages : list page_rec }.

(** The collaborators of one run: the backend, pydantic's parser, and the
    opened document (reading the upload, office conversion and [fitz.open],
    or the exception that raised). *)
Record env := {
  post : payload -> http_response;
  parse_raw : string -> SystemPromptOutput + string;
  opened : res pdf_doc }.

(** [process_pdf_pages]. [completed] is the order in which [as_completed]
    yields the batch futures: it rearranges the list of batches submitted.
    [process_page_batch] does not raise, so the [except] around
    [future.result()] is never taken. The message of the [ValueError] is
    kept without its [". Error: {e}"] tail. *)
Definition process_pdf_pages (e : env)
    (completed : list (list nat) -> list (list nat)) (file_name : string)
    : res (document_data * content) :=
  let fail := fun _ : exn => Raise (ValueError ("Unable to process the file " ++ file_name)) in
  match opened e with
  | Raise ex => fail ex
  | Ok pdf =>
      let total_pages := length pdf in
      match sample_content pdf (py_range 0 (Nat.min 3 total_pages)) "" with
      | Raise ex => fail ex
      | Ok document_content =>
          match generate_system_prompt (post e) (parse_raw e) document_content with
          | Raise ex => fail ex
          | Ok system_prompt_data =>
              let system_prompt := build_system_prompt system_prompt_data in
              let batches := page_batches total_pages in
              let collected :=
                flat_map (fun b => fst (process_page_batch (post e) pdf b system_prompt (2 # 5)%Q))
                         (completed batches) in
              Ok ({| document_name := file_name; pages := sort_by_page collected |},
                  system_prompt)
          end
      end
  end.

(* ------------------------------------------------------------------ *)
(** ** [ask_question] *)

Definition image_explanation_text (page : page_rec) : string :=
  match image_analysis page with
  | [] => "No image analysis."
  | ia => join nl (map (fun '(n, ex) => "Page " ++ str_of_nat n ++ ": " ++ ex) ia)
  end.

Definition page_block (page : page_rec) : string :=
  "Page " ++ str_of_nat (page_number page) ++ nl
  ++ "Full Text: " ++ full_text page ++ nl
  ++ "Summary: " ++ text_summary page ++ nl
  ++ "Image Analysis: " ++ image_explanation_text page ++ nl ++ nl.

Definition combined_content (documents : list (string * document_data)) : string :=
  fold_left (fun acc '(_, doc_data) =>
               fold_left (fun acc' page => acc' ++ page_block page) (pages doc_data) acc)
            documents "".

(** [chat_history] entries are [{"question", "answer"}] dicts. *)
Definition conversation_history (chat_history : list (string * string)) : string :=
  fold_right (fun '(q, a) acc => "User: " ++ q ++ nl ++ "Assistant: " ++ a ++ nl ++ acc)
             "" chat_history.

Definition ask_prompt (documents : list (string * document_data))
    (question : string) (chat_history : list (string * string)) : string :=
  nl ++
  "    You are given the following content:" ++ nl ++ nl ++
  "    ---" ++ nl ++
  "    " ++ combined_content documents ++ nl ++
  "    ---" ++ nl ++
  "    Previous responses over the current chat session: " ++ conversation_history chat_history ++ nl ++ nl ++
  "    Answer the following question based **strictly and only** on the factual information provided in the content above. " ++ nl ++
  "    Carefully verify all details from the content and do not generate any information that is not explicitly mentioned in it." ++ nl ++
  "    If the answer cannot be determined from the content, explicitly state that the information is not available." ++ nl ++
  "    Ensure the response is clearly formatted for readability." ++ nl ++
  "    " ++ nl ++
  "    At the end of the response, include references to the document name and page number(s) where the information was found." ++ nl ++ nl ++
  "    Question: " ++ question ++ nl ++
  "    ".

Definition ask_payload (documents : list (string * document_data))
    (question : string) (chat_history : list (string * string)) : payload :=
  {| messages :=
       [ {| role := "system";
            mcontent := CText "You are an assistant that answers questions based only on provided knowledge base." |};
         {| role := "user"; mcontent := CText (ask_prompt documents question chat_history) |} ];
     temperature := 0%Q |}.

(** [ask_question]: the payload it posts and what it returns or raises. *)
Definition ask_question (post : payload -> http_response)
    (documents : list (string * document_data)) (question : string)
    (chat_history : list (string * string)) : payload * res string :=
  let data := ask_payload documents question chat_history in
  (data,
   match post_and_extract post data "No answer provided." with
   | Ok s => Ok (strip s)
   | Raise RequestException =>
       Raise (GenericException "Unable to answer the question due to network issues or API error.")
   | Raise ex => Raise ex
   end).

(* ------------------------------------------------------------------ *)
(** ** Reading the [summarize_page] calls of a batch *)

(** The value of [previous_summary] after a call: the summary when the
    call returned, the argument it was given when it raised. *)
Definition after_call (c : call) : string :=
  match c_result c with Ok s => s | Raise _ => c_prev c end.

(** Each call receives as [previous_summary] the value left by the call
    before it, the first one [prev]. *)
Fixpoint chained (prev : string) (calls : list call) : Prop :=
  match calls with
  | [] => True
  | c :: r => c_prev c = prev /\ chained (after_call c) r
  end.

(** The chain as stated for page numbers: every call but the one for the
    first page of the batch receives the summary returned by the call for
    the page just before it. *)
Definition chain_by_page (batch : list nat) (calls : list call) : Prop :=
  forall c, In c calls -> c_page c <> S (hd 0 batch) ->
  exists c', In c' calls /\ c_page c' = c_page c - 1 /\ c_result c' = Ok (c_prev c).

(** The value of [previous_summary] at the start of each iteration of the
    loop of [process_page_batch]. *)
Fixpoint batch_prevs (post : payload -> http_response) (pdf : pdf_doc)
    (system_prompt : content) (ocr_text_threshold : Q) (prev : string)
    (batch : list nat) : list string :=
  match batch with
  | [] => []
  | n :: rest =>
      let '(prev', _, _) := page_body post pdf system_prompt ocr_text_threshold n prev in
      prev :: batch_prevs post pdf system_prompt ocr_text_threshold prev' rest
  end.

(** The outcome of the [try] body, as [page_body] returns it. *)
Definition body_outcome (x : string * list call * res page_rec) : res page_rec :=
  let '(_, _, out) := x in out.

(** A page with an image on it (little text, one embedded image). *)
Definition figure_page : pdf_page :=
  {| ptext := "Figure 1"; pimages := 1; pblocks := [(0, 0, 100, 20)%Q];
     pdrawings := 0; pwidth := 612%Q; pheight := 792%Q;
     ppix := Some "iVBORw0KGgo=" |}.

(** A backend that answers text requests and sends an empty [choices] list
    to image requests. *)
Definition image_failing_backend : payload -> http_response :=
  fun p => match map mcontent (messages p) with
           | [_; CParts _] => Resp 200 (JObj (Some []))
           | _ => Resp 200 (JObj (Some [Some "summary"]))
           end.

(* ------------------------------------------------------------------ *)
(** ** Sample inputs *)

Definition sample_page (t : string) : pdf_page :=
  {| ptext := t; pimages := 0; pblocks := [(0, 0, 400, 600)%Q]; pdrawings := 0;
     pwidth := 612%Q; pheight := 792%Q; ppix := Some "iVBORw0KGgo=" |}.

(** Seven pages, the fifth one damaged. *)
Definition sample_pdf : pdf_doc :=
  [Some (sample_page "Introduction"); Some (sample_page "Scope");
   Some (sample_page "Design"); Some (sample_page "Results"); None;
   Some (sample_page "Discussion"); Some (sample_page "Appendix")].

(** A backend that answers every request with the same text. *)
Definition constant_backend (answer : string) : payload -> http_response :=
  fun _ => Resp 200 (JObj (Some [Some answer])).

Definition sample_env : env :=
  {| post := constant_backend "summary";
     parse_raw := fun _ => inr "invalid JSON";
     opened := Ok sample_pdf |}.

(** A persona as the backend is asked to produce it. *)
Definition sample_persona : SystemPromptOutput :=
  {| document := "report"; domain := "Aerospace engineering";
     subject := "aerodynamics"; expertise := "technical";
     qualification := "Master in Aerospace engineering"; style := "Professional";
     tone := "Formal"; voice := "neutral" |}.

(** A run whose persona request is answered and parsed. *)
Definition persona_env : env :=
  {| post := constant_backend "{persona JSON}";
     parse_raw := fun _ => inl sample_persona;
     opened := Ok [Some (sample_page "Wing loads")] |}.

(** A page with no text block, no image and one vector drawing. *)
Definition drawing_page : pdf_page :=
  {| ptext := ""; pimages := 0; pblocks := []; pdrawings := 1;
     pwidth := 612%Q; pheight := 792%Q; ppix := Some "iVBORw0KGgo=" |}.

(** A blank page: no text block, no image, no drawing. *)
Definition blank_page : pdf_page :=
  {| ptext := ""; pimages := 0; pblocks := []; pdrawings := 0;
     pwidth := 612%Q; pheight := 792%Q; ppix := Some "iVBORw0KGgo=" |}.

(** A zero-area page with an image and some text. *)
Definition flat_page : pdf_page :=
  {| ptext := "Caption"; pimages := 1; pblocks := [(0, 0, 0, 0)%Q]; pdrawings := 0;
     pwidth := 0%Q; pheight := 0%Q; ppix := Some "iVBORw0KGgo=" |}.

(** A string with no whitespace character. *)
Fixpoint no_space (s : string) : bool :=
  match s with
  | EmptyString => true
  | String c r => negb (is_space c) && no_space r
  end.

(** The responses on which [requests] raises: a transport failure, a 4xx or
    5xx status ([raise_for_status]), or a body that is not JSON
    ([response.json()]). *)
Definition request_error (r : http_response) : bool :=
  match r with
  | ConnError | TimeoutError => true
  | Resp status body =>
      raise_for_status status || match body with JInvalid => true | _ => false end
  end.

(** A response whose [choices] list is present and empty. *)
Definition empty_choices (r : http_response) : bool :=
  match r with
  | Resp status (JObj (Some [])) => negb (raise_for_status status)
  | _ => false
  end.

(** Whether [pdf_document.load_page(n)] succeeds. *)
Definition page_loads (pdf : pdf_doc) (n : nat) : bool :=
  match load_page pdf n with Ok _ => true | Raise _ => false end.

(** A run whose document has a damaged second page. *)
Definition damaged_head_env : env :=
  {| post := constant_backend "summary";
     parse_raw := fun _ => inr "invalid JSON";
     opened := Ok [Some (sample_page "Title"); None; Some (sample_page "Body")] |}.

(* ------------------------------------------------------------------ *)
(** ** The older gateway of [azure_api.py] *)

(** Decimal rendering of an int in an f-string. *)
Definition str_of_Z (z : Z) : string :=
  if (z <? 0)%Z then "-" ++ str_of_nat (Z.to_nat (- z)) else str_of_nat (Z.to_nat z).

Module azure_api.

(** What [requests.post(...)] (no [timeout]) produces there: a transport
    failure, or a response with its [status_code], its decoded body and its
    [text]. *)
Inductive response :=
| ConnError
| Resp (status_code : Z) (body : json_body) (text : string).

(** What these functions can raise: the transport errors of [requests], the
    decode error of [response.json()], and the [KeyError] and [IndexError]
    of the subscripts. *)
Inductive error :=
| RequestException
| JSONDecodeError
| KeyError
| IndexError.

Inductive result (A : Type) :=
| Ok (a : A)
| Raise (e : error).
Arguments Ok {A} a.
Arguments Raise {A} e.

(** [response.json()['choices'][0]['message']['content']]; a [None] entry
    of [choices] is one without [message.content]. As for [json_body], a
    [null] content or a [choices] that is [null] or not a list is not
    represented. *)
Definition choice_content (body : json_body) : result string :=
  match body with
  | JInvalid => Raise JSONDecodeError
  | JObj None => Raise KeyError
  | JObj (Some []) => Raise IndexError
  | JObj (Some (None :: _)) => Raise KeyError
  | JObj (Some (Some s :: _)) => Ok s
  end.

(** [f"Error: {response.status_code}, {response.text}"] *)
Definition error_string (status_code : Z) (text : string) : string :=
  "Error: " ++ str_of_Z status_code ++ ", " ++ text.

Definition image_payload (base64_image document_name : string) : payload :=
  {| messages :=
       [ {| role := "system";
            mcontent := CText ("You are a helpful assistant that analyzes images for "
                               ++ document_name ++ ".") |};
         {| role := "user";
            mcontent := CParts
              [ TextPart ("Explain the content of this image from the document '"
                          ++ document_name ++ "' in a single, coherent paragraph.");
                ImageUrlPart ("data:image/png;base64," ++ base64_image) ] |} ];
     temperature := (7 # 10)%Q |}.

(** [get_image_explanation] *)
Definition get_image_explanation (post : payload -> response)
    (base64_image document_name : string) : result string :=
  match post (image_payload base64_image document_name) with
  | ConnError => Raise RequestException
  | Resp status_code body text =>
      if (status_code =? 200)%Z then choice_content body
      else Ok (error_string status_code text)
  end.

Definition summarize_prompt (page_text previous_summary : string)
    (page_number : nat) (document_name : string) : string :=
  "Summarize the following page from the document '" ++ document_name
  ++ "' (Page " ++ str_of_nat page_number ++ ") with context from the previous summary."
  ++ nl ++ nl
  ++ "Previous summary: " ++ previous_summary ++ nl ++ nl
  ++ "Text:" ++ nl ++ page_text ++ nl.

Definition summarize_payload (page_text previous_summary : string)
    (page_number : nat) (document_name : string) : payload :=
  {| messages :=
       [ {| role := "system";
            mcontent := CText ("You are an assistant that summarizes text with context from the document '"
                               ++ document_name ++ "'.") |};
         {| role := "user";
            mcontent := CText (summarize_prompt page_text previous_summary page_number document_name) |} ];
     temperature := 0%Q |}.

(** [summarize_page] *)
Definition summarize_page (post : payload -> response)
    (page_text previous_summary : string) (page_number : nat)
    (document_name : string) : result string :=
  match post (summarize_payload page_text previous_summary page_number document_name) with
  | ConnError => Raise RequestException
  | Resp status_code body text =>
      if (status_code =? 200)%Z then
        match choice_content body with
        | Ok s => Ok (strip s)
        | Raise e => Raise e
        end
      else Ok (error_string status_code text)
  end.

(** [combined_content] of [ask_question]: one block per document, its page
    summaries joined by newlines, the blocks joined by blank lines. *)
Definition combined_content (documents : list (string * document_data)) : string :=
  join (nl ++ nl)
       (map (fun '(doc_name, doc_info) =>
               "Document: " ++ doc_name ++ nl
               ++ join nl (map text_summary (pages doc_info)))
            documents).

Definition ask_prompt (documents : list (string * document_data))
    (question : string) : string :=
  "You are an assistant that answers questions based on multiple documents." ++ nl ++ nl
  ++ "Combined document summaries:" ++ nl ++ combined_content documents ++ nl ++ nl
  ++ "Question: " ++ question ++ nl.

Definition ask_payload (documents : list (string * document_data))
    (question : string) : payload :=
  {| messages :=
       [ {| role := "system";
            mcontent := CText "You are an assistant that answers questions about documents." |};
         {| role := "user"; mcontent := CText (ask_prompt documents question) |} ];
     temperature := (7 # 10)%Q |}.

(** [ask_question] *)
Definition ask_question (post : payload -> response)
    (documents : list (string * document_data)) (question : string) : result string :=
  match post (ask_payload documents question) with
  | ConnError => Raise RequestException
  | Resp status_code body text =>
      if (status_code =? 200)%Z then
        match choice_content body with
        | Ok s => Ok (strip s)
        | Raise e => Raise e
        end
      else Ok (error_string status_code text)
  end.

End azure_api.

(* ================================================================== *)
(** * Properties *)

(* ------------------------------------------------------------------ *)
(** ** Batches cover the pages in order *)

Lemma chunks_concat (T k s : nat) :
  concat (map (fun j => py_range (s + j * batch_size)
                                 (Nat.min (s + j * batch_size + batch_size) T))
              (seq 0 k))
  = seq s (Nat.min (s + k * batch_size) T - s).
Proof.
  revert s. induction k as [|k IH]; intros s.
  - simpl. replace (Nat.min (s + 0) T - s) with 0 by lia. reflexivity.
  - cbn [seq map concat]. rewrite <- (seq_shift k 0), map_map.
    rewrite (map_ext
      (fun x => py_range (s + S x * batch_size)
                         (Nat.min (s + S x * batch_size + batch_size) T))
      (fun j => py_range (s + batch_size + j * batch_size)
                         (Nat.min (s + batch_size + j * batch_size + batch_size) T)))
      by (intros j; unfold batch_size; f_equal; lia).
    rewrite IH. unfold py_range, batch_size in *.
    replace (s + 0 * 5) with s by lia.
    destruct (Nat.le_gt_cases T (s + 5)) as [Hle | Hgt].
    + replace (Nat.min (s + 5 + k * 5) T - (s + 5)) with 0 by lia. simpl.
      rewrite app_nil_r. f_equal. lia.
    + replace (Nat.min (s + 5) T - s) with 5 by lia.
      rewrite <- seq_app. f_equal. lia.
Qed.

Lemma page_batches_concat (total_pages : nat) :
  concat (page_batches total_pages) = seq 0 total_pages.
Proof.
  unfold page_batches, py_range_step. rewrite map_map.
  rewrite (chunks_concat total_pages _ 0). unfold batch_size.
  pose proof (Nat.div_mod (total_pages - 0 + 5 - 1) 5 ltac:(lia)) as Hd.
  pose proof (Nat.mod_upper_bound (total_pages - 0 + 5 - 1) 5 ltac:(lia)).
  f_equal. lia.
Qed.

(* ------------------------------------------------------------------ *)
(** ** Each page of a batch yields one entry with its number *)

Lemma page_body_number post pdf sp thr n prev prev' cs r :
  page_body post pdf sp thr n prev = (prev', cs, Ok r) -> page_number r = S n.
Proof.
  unfold page_body.
  destruct (load_page pdf n); [|congruence].
  destruct (summarize_page _ _ _ _ _); [|congruence].
  destruct (detect_ocr_images_and_vector_graphics_in_pdf _ _) as [img|];
    [destruct (str_truthy img); [destruct (get_image_explanation _ _)|]|];
    intros H; inversion H; reflexivity.
Qed.

Lemma batch_loop_numbers post pdf sp thr prev batch :
  map page_number (fst (batch_loop post pdf sp thr prev batch)) = map S batch.
Proof.
  revert prev. induction batch as [|n rest IH]; intros prev; [reflexivity|].
  simpl. destruct (page_body post pdf sp thr n prev) as [[prev' cs] out] eqn:Hb.
  specialize (IH prev').
  destruct (batch_loop post pdf sp thr prev' rest) as [entries cs'] eqn:Hl.
  simpl in *. rewrite IH. f_equal.
  destruct out as [r|ex]; [eapply page_body_number; eauto|reflexivity].
Qed.

(* ------------------------------------------------------------------ *)
(** ** The stable sort *)

Definition page_le (a b : page_rec) : Prop := page_number a <= page_number b.

Lemma insert_by_page_perm r l : Permutation (insert_by_page r l) (r :: l).
Proof.
  induction l as [|x xs IH]; simpl; [reflexivity|].
  destruct (Nat.ltb (page_number r) (page_number x)); [reflexivity|].
  rewrite IH. apply perm_swap.
Qed.

Lemma insert_by_page_sorted r l :
  Sorted page_le l -> Sorted page_le (insert_by_page r l).
Proof.
  induction l as [|x xs IH]; intros Hs; simpl; [constructor; constructor|].
  destruct (Nat.ltb (page_number r) (page_number x)) eqn:Hlt.
  - apply Nat.ltb_lt in Hlt. constructor; [exact Hs|]. constructor.
    unfold page_le. lia.
  - apply Nat.ltb_ge in Hlt. apply Sorted_inv in Hs as [Hs Hhd].
    constructor; [apply IH; exact Hs|].
    destruct xs as [|y ys]; simpl.
    + constructor. unfold page_le. lia.
    + apply HdRel_inv in Hhd.
      destruct (Nat.ltb (page_number r) (page_number y));
        constructor; unfold page_le in *; lia.
Qed.

Lemma sort_by_page_spec (l : list page_rec) :
  Permutation (sort_by_page l) l /\ Sorted page_le (sort_by_page l).
Proof.
  unfold sort_by_page.
  assert (Hgen : forall acc, Sorted page_le acc ->
            Permutation (fold_left (fun acc r => insert_by_page r acc) l acc) (acc ++ l)
            /\ Sorted page_le (fold_left (fun acc r => insert_by_page r acc) l acc)).
  { induction l as [|x xs IH]; intros acc Hacc; simpl.
    - rewrite app_nil_r. split; [reflexivity|exact Hacc].
    - destruct (IH (insert_by_page x acc)) as [Hp Hs];
        [apply insert_by_page_sorted; exact Hacc|].
      split; [|exact Hs].
      rewrite Hp, insert_by_page_perm. simpl.
      apply Permutation_middle. }
  destruct (Hgen [] (Sorted_nil _)) as [Hp Hs]. split; [exact Hp|exact Hs].
Qed.

(** A sorted arrangement of [start, ..., start + n - 1] is that list. *)
Lemma sorted_perm_seq (l : list nat) (start n : nat) :
  Sorted le l -> Permutation l (seq start n) -> l = seq start n.
Proof.
  revert l start. induction n as [|n IH]; intros l start Hs Hp.
  - apply Permutation_nil. symmetry. exact Hp.
  - destruct l as [|x l'].
    + apply Permutation_nil in Hp. discriminate.
    + simpl in *.
      apply Sorted_StronglySorted in Hs; [|intros a b c; lia].
      assert (Hx : start <= x).
      { assert (In x (seq start (S n))) as Hin
          by (eapply Permutation_in; [exact Hp|left; reflexivity]).
        apply in_seq in Hin. lia. }
      assert (Hst : start = x).
      { assert (In start (x :: l')) as Hin
          by (eapply Permutation_in; [symmetry; exact Hp|left; reflexivity]).
        destruct Hin as [->|Hin]; [reflexivity|].
        apply StronglySorted_inv in Hs as [_ Hall].
        rewrite Forall_forall in Hall. specialize (Hall _ Hin). lia. }
      subst x. f_equal. apply IH.
      * apply StronglySorted_inv in Hs as [Hs _].
        apply StronglySorted_Sorted. exact Hs.
      * eapply Permutation_cons_inv. exact Hp.
Qed.

Lemma sorted_numbers (l : list page_rec) :
  Sorted page_le l -> Sorted le (map page_number l).
Proof.
  induction 1 as [|a l Hs IH Hhd]; simpl; constructor; [exact IH|].
  destruct Hhd; simpl; constructor; assumption.
Qed.

Lemma collected_numbers post pdf sp thr (bs : list (list nat)) :
  map page_number (flat_map (fun b => fst (process_page_batch post pdf b sp thr)) bs)
  = map S (concat bs).
Proof.
  induction bs as [|b bs IH]; [reflexivity|].
  simpl. rewrite !map_app, IH. unfold process_page_batch.
  rewrite batch_loop_numbers. reflexivity.
Qed.

Lemma collected_perm post pdf sp thr (completed : list (list nat) -> list (list nat))
    (bs : list (list nat)) :
  (forall bs, Permutation (completed bs) bs) ->
  Permutation
    (flat_map (fun b => fst (process_page_batch post pdf b sp thr)) (completed bs))
    (flat_map (fun b => fst (process_page_batch post pdf b sp thr)) bs).
Proof. intros Hc. apply Permutation_flat_map. apply Hc. Qed.

(** Claim C1: whenever [process_pdf_pages] returns, the [pages] field of
    the document record it returns holds one entry per page of the
    document, numbered 1, 2, ..., N in this order, whatever pages failed and
    whatever the order in which the batches completed. *)
Theorem process_pdf_pages_numbers (e : env)
    (completed : list (list nat) -> list (list nat)) (file_name : string)
    (pdf : pdf_doc) :
  (forall bs, Permutation (completed bs) bs) ->
  opened e = Ok pdf ->
  match process_pdf_pages e completed file_name with
  | Ok (doc, _) => map page_number (pages doc) = seq 1 (length pdf)
  | Raise _ => True
  end.
Proof.
  intros Hc Hop. unfold process_pdf_pages. rewrite Hop.
  destruct (sample_content _ _ _) as [dc|]; [|exact I].
  destruct (generate_system_prompt _ _ _) as [v|]; [|exact I].
  simpl. apply sorted_perm_seq.
  - apply sorted_numbers, sort_by_page_spec.
  - rewrite (proj1 (sort_by_page_spec _)).
    rewrite (Permutation_map page_number (collected_perm _ _ _ _ _ _ Hc)).
    rewrite collected_numbers, page_batches_concat, seq_shift. reflexivity.
Qed.

Lemma process_pdf_pages_numbers_witness :
  (forall bs : list (list nat), Permutation (rev bs) bs) /\ opened sample_env = Ok sample_pdf /\
  match process_pdf_pages sample_env (@rev (list nat)) "report.pdf" with
  | Ok (doc, _) => map page_number (pages doc) = seq 1 (length sample_pdf)
  | Raise _ => True
  end.
Proof.
  split; [intros bs; symmetry; apply Permutation_rev|].
  split; [reflexivity|].
  apply (process_pdf_pages_numbers sample_env (@rev (list nat)) "report.pdf" sample_pdf).
  - intros bs. symmetry. apply Permutation_rev.
  - reflexivity.
Defined.

(** Claim C1 as stated fails: the document of [damaged_head_env] has three
    pages, the second one damaged. The persona request reads the first
    three pages, so [process_pdf_pages] raises a [ValueError] and returns no
    page record at all. *)
Lemma process_pdf_pages_numbers_counterexample :
  opened damaged_head_env = Ok [Some (sample_page "Title"); None; Some (sample_page "Body")] /\
  match process_pdf_pages damaged_head_env (fun bs => bs) "report.pdf" with
  | Ok _ => False
  | Raise (ValueError _) => True
  | Raise _ => False
  end.
Proof. split; [reflexivity|vm_compute; exact I]. Qed.

Example sample_run_pages :
  match process_pdf_pages sample_env (@rev (list nat)) "report.pdf" with
  | Ok (doc, _) => map text_summary (pages doc)
  | Raise _ => []
  end = ["summary"; "summary"; "summary"; "summary"; error_text; "summary"; "summary"].
Proof. vm_compute. reflexivity. Qed.

(* ------------------------------------------------------------------ *)
(** ** The summary chain inside a batch *)

Lemma page_body_calls post pdf sp thr n prev prev' cs out :
  page_body post pdf sp thr n prev = (prev', cs, out) ->
  (cs = [] /\ prev' = prev) \/
  (exists c, cs = [c] /\ c_page c = S n /\ c_prev c = prev /\ prev' = after_call c).
Proof.
  unfold page_body.
  destruct (load_page pdf n) as [pg|ex].
  2:{ intros H; inversion H; subst. left. split; reflexivity. }
  destruct (summarize_page _ _ _ _ _) as [summary|ex] eqn:Hs.
  2:{ intros H; inversion H; subst. right. eexists; split; [reflexivity|].
      simpl. unfold after_call. simpl. repeat split. }
  destruct (detect_ocr_images_and_vector_graphics_in_pdf _ _) as [img|];
    [destruct (str_truthy img); [destruct (get_image_explanation _ _)|]|];
    intros H; inversion H; subst; right; eexists; split; try reflexivity;
    unfold after_call; simpl; rewrite ?Hs; repeat split.
Qed.

Lemma batch_loop_chained post pdf sp thr prev batch :
  chained prev (snd (batch_loop post pdf sp thr prev batch)).
Proof.
  revert prev. induction batch as [|n rest IH]; intros prev; [exact I|].
  simpl. destruct (page_body post pdf sp thr n prev) as [[prev' cs] out] eqn:Hb.
  specialize (IH prev').
  destruct (batch_loop post pdf sp thr prev' rest) as [entries cs'] eqn:Hl.
  simpl in *.
  destruct (page_body_calls _ _ _ _ _ _ _ _ _ Hb) as [[-> ->]|[c [-> [_ [Hp ->]]]]].
  - exact IH.
  - simpl. split; [exact Hp|exact IH].
Qed.

Lemma batch_loop_call_pages post pdf sp thr prev batch :
  Forall (fun c => In (c_page c) (map S batch))
         (snd (batch_loop post pdf sp thr prev batch)).
Proof.
  revert prev. induction batch as [|n rest IH]; intros prev; [constructor|].
  simpl. destruct (page_body post pdf sp thr n prev) as [[prev' cs] out] eqn:Hb.
  specialize (IH prev').
  destruct (batch_loop post pdf sp thr prev' rest) as [entries cs'] eqn:Hl.
  simpl in *. apply Forall_app. split.
  - destruct (page_body_calls _ _ _ _ _ _ _ _ _ Hb) as [[-> _]|[c [-> [Hc _]]]];
      constructor; [left; symmetry; exact Hc| constructor].
  - eapply Forall_impl; [|exact IH]. intros c Hc. right. exact Hc.
Qed.

Lemma batch_loop_increasing post pdf sp thr prev batch :
  StronglySorted lt batch ->
  StronglySorted lt (map c_page (snd (batch_loop post pdf sp thr prev batch))).
Proof.
  revert prev. induction batch as [|n rest IH]; intros prev Hs; [constructor|].
  apply StronglySorted_inv in Hs as [Hs Hall].
  simpl. destruct (page_body post pdf sp thr n prev) as [[prev' cs] out] eqn:Hb.
  pose proof (batch_loop_call_pages post pdf sp thr prev' rest) as Hin.
  specialize (IH prev' Hs).
  destruct (batch_loop post pdf sp thr prev' rest) as [entries cs'] eqn:Hl.
  simpl in *.
  destruct (page_body_calls _ _ _ _ _ _ _ _ _ Hb) as [[-> _]|[c [-> [Hc _]]]].
  - exact IH.
  - simpl. constructor; [exact IH|].
    rewrite Forall_forall in Hin, Hall |- *. intros p Hp.
    apply in_map_iff in Hp as [c' [<- Hc']].
    specialize (Hin c' Hc'). apply in_map_iff in Hin as [m [Hm Hmin]].
    specialize (Hall m Hmin). lia.
Qed.

Lemma page_batches_length (total_pages : nat) :
  length (page_batches total_pages) = Nat.div (total_pages - 0 + 5 - 1) 5.
Proof.
  unfold page_batches, py_range_step. rewrite !length_map, length_seq. reflexivity.
Qed.

Lemma page_batches_nth (total_pages j : nat) (b : list nat) :
  nth_error (page_batches total_pages) j = Some b ->
  b = seq (j * batch_size) (length b) /\ 1 <= length b <= batch_size /\
  (length b = batch_size \/ S j = length (page_batches total_pages)).
Proof.
  rewrite page_batches_length. unfold page_batches, py_range_step.
  rewrite !nth_error_map, nth_error_seq.
  destruct (Nat.ltb j _) eqn:Hj; cbn [option_map]; [|discriminate].
  intros H; inversion H; subst b; clear H. apply Nat.ltb_lt in Hj.
  unfold py_range, batch_size in *. rewrite length_seq.
  pose proof (Nat.div_mod (total_pages - 0 + 5 - 1) 5 ltac:(lia)) as Hd.
  pose proof (Nat.mod_upper_bound (total_pages - 0 + 5 - 1) 5 ltac:(lia)).
  set (k := Nat.div (total_pages - 0 + 5 - 1) 5) in *.
  split; [f_equal; lia|].
  destruct (Nat.le_gt_cases (0 + j * 5 + 5) total_pages).
  - split; [lia|]. left. lia.
  - split; [lia|]. right. lia.
Qed.

Lemma range_sorted (start len : nat) : StronglySorted lt (seq start len).
Proof.
  revert start. induction len as [|len IH]; intros start; simpl; constructor.
  - apply IH.
  - apply Forall_forall. intros x Hx. apply in_seq in Hx. lia.
Qed.

(** Claim C2 (as amended): [page_batches] cuts [0, N) into contiguous
    batches of 5 pages, the last one possibly shorter; inside a batch the
    [summarize_page] calls go in strictly increasing page order, the first
    one receives [""], and each later one receives what the call before it
    left in [previous_summary]: the summary it returned, or, when it raised,
    the value it had itself received. Pages whose loading failed make no
    call. *)
Theorem process_page_batch_chain (post : payload -> http_response)
    (pdf : pdf_doc) (system_prompt : content) (thr : Q) (total_pages : nat) :
  concat (page_batches total_pages) = seq 0 total_pages /\
  (forall j b, nth_error (page_batches total_pages) j = Some b ->
     b = seq (j * batch_size) (length b) /\ 1 <= length b <= batch_size /\
     (length b = batch_size \/ S j = length (page_batches total_pages)) /\
     StronglySorted lt (map c_page (snd (process_page_batch post pdf b system_prompt thr))) /\
     chained "" (snd (process_page_batch post pdf b system_prompt thr))).
Proof.
  split; [apply page_batches_concat|].
  intros j b Hb. destruct (page_batches_nth _ _ _ Hb) as [Hseq Hlen].
  split; [exact Hseq|]. destruct Hlen as [Hlen Hlast]. split; [exact Hlen|]. split; [exact Hlast|]. split.
  - unfold process_page_batch. apply batch_loop_increasing.
    rewrite Hseq. apply range_sorted.
  - apply batch_loop_chained.
Qed.

(** Claim C2 as stated fails: in the first batch of a 3-page document whose
    second page cannot be loaded, the call for page 3 receives the summary
    of page 1, and no summary was produced for page 2. *)
Lemma process_page_batch_chain_counterexample :
  nth_error (page_batches 3) 0 = Some [0; 1; 2] /\
  ~ chain_by_page [0; 1; 2]
      (snd (process_page_batch (constant_backend "summary")
              [Some (sample_page "one"); None; Some (sample_page "three")]
              [0; 1; 2] default_system_prompt (2 # 5)%Q)).
Proof.
  split; [reflexivity|].
  set (cs := snd (process_page_batch _ _ _ _ _)).
  assert (Hcs : cs = [ {| c_page := 1; c_prev := ""; c_result := Ok "summary" |};
                       {| c_page := 3; c_prev := "summary"; c_result := Ok "summary" |} ])
    by (vm_compute; reflexivity).
  rewrite Hcs. intros H.
  destruct (H {| c_page := 3; c_prev := "summary"; c_result := Ok "summary" |})
    as [c' [Hin [Hpage _]]];
    [right; left; reflexivity|simpl; discriminate|].
  simpl in Hin, Hpage.
  destruct Hin as [<-|[<-|[]]]; simpl in Hpage; discriminate.
Qed.

(* ------------------------------------------------------------------ *)
(** ** Page-level failures *)

Lemma batch_loop_positions post pdf sp thr prev batch :
  length (fst (batch_loop post pdf sp thr prev batch)) = length batch /\
  forall i n p, nth_error batch i = Some n ->
    nth_error (batch_prevs post pdf sp thr prev batch) i = Some p ->
    nth_error (fst (batch_loop post pdf sp thr prev batch)) i
    = Some (match body_outcome (page_body post pdf sp thr n p) with
            | Ok r => r | Raise _ => error_record n end).
Proof.
  revert prev. induction batch as [|n rest IH]; intros prev.
  - split; [reflexivity|]. intros [|i]; discriminate.
  - simpl. destruct (page_body post pdf sp thr n prev) as [[prev' cs] out] eqn:Hb.
    destruct (IH prev') as [Hlen Hpos].
    destruct (batch_loop post pdf sp thr prev' rest) as [entries cs'] eqn:Hl.
    simpl in *. split; [f_equal; exact Hlen|].
    intros [|i] m p Hm Hp; simpl in Hm, Hp.
    + inversion Hm; inversion Hp; subst. rewrite Hb. reflexivity.
    + apply Hpos; assumption.
Qed.

(** Claim C7: [process_page_batch] returns one entry per page of the batch,
    in the batch's order; the entry of a page whose [try] body raised is
    [{"page_number": n + 1, "full_text": "", "text_summary": "Error in
    processing this page", "image_analysis": []}], and the loop goes on with
    the next page (the function itself returns a list, it does not raise). *)
Theorem process_page_batch_errors (post : payload -> http_response)
    (pdf : pdf_doc) (batch : list nat) (system_prompt : content) (thr : Q) :
  length (fst (process_page_batch post pdf batch system_prompt thr)) = length batch /\
  forall i n p, nth_error batch i = Some n ->
    nth_error (batch_prevs post pdf system_prompt thr "" batch) i = Some p ->
    (forall ex, body_outcome (page_body post pdf system_prompt thr n p) = Raise ex ->
       nth_error (fst (process_page_batch post pdf batch system_prompt thr)) i
       = Some {| page_number := n + 1; full_text := "";
                 text_summary := "Error in processing this page";
                 image_analysis := [] |}) /\
    (forall r, body_outcome (page_body post pdf system_prompt thr n p) = Ok r ->
       nth_error (fst (process_page_batch post pdf batch system_prompt thr)) i = Some r).
Proof.
  destruct (batch_loop_positions post pdf system_prompt thr "" batch) as [Hlen Hpos].
  unfold process_page_batch. split; [exact Hlen|].
  intros i n p Hn Hp. rewrite (Hpos i n p Hn Hp).
  split; intros x Hx; rewrite Hx; [|reflexivity].
  unfold error_record. rewrite Nat.add_1_r. reflexivity.
Qed.

Example process_page_batch_errors_ex :
  fst (process_page_batch (constant_backend "summary") sample_pdf [3; 4; 5]
         default_system_prompt (2 # 5)%Q)
  = [ {| page_number := 4; full_text := "Results"; text_summary := "summary";
         image_analysis := [] |};
      error_record 4;
      {| page_number := 6; full_text := "Discussion"; text_summary := "summary";
         image_analysis := [] |} ].
Proof. vm_compute. reflexivity. Qed.

(* ------------------------------------------------------------------ *)
(** ** [previous_summary] after a failed page *)

Lemma chained_provenance (prev : string) (calls : list call) :
  chained prev calls ->
  forall i c, nth_error calls i = Some c ->
    c_prev c = prev \/
    exists j c', j < i /\ nth_error calls j = Some c' /\ c_result c' = Ok (c_prev c).
Proof.
  revert prev. induction calls as [|c0 r IH]; intros prev Hch i c Hc;
    [destruct i; discriminate|].
  destruct Hch as [Hp Hch]. destruct i as [|i]; simpl in Hc.
  - inversion Hc; subst. left. reflexivity.
  - destruct (IH _ Hch i c Hc) as [Hq|[j [c' [Hj [Hc' Hr]]]]].
    + unfold after_call in Hq. destruct (c_result c0) as [s|ex] eqn:Hr0.
      * right. exists 0, c0. repeat split; [lia|rewrite Hr0; congruence].
      * left. congruence.
    + right. exists (S j), c'. repeat split; [lia|exact Hc'|exact Hr].
Qed.

(** Claim C10 (as amended): inside a batch, [previous_summary] changes
    exactly when a [summarize_page] call returns, even when the page then
    raises later (in the image step); a page that raises before or inside
    its summarization call leaves it unchanged. So every call receives
    either [""] or the summary returned by an earlier call of the same
    batch, never the error entry's text. *)
Theorem process_page_batch_prev_after_error (post : payload -> http_response)
    (pdf : pdf_doc) (batch : list nat) (system_prompt : content) (thr : Q) :
  let calls := snd (process_page_batch post pdf batch system_prompt thr) in
  chained "" calls /\
  forall i c, nth_error calls i = Some c ->
    c_prev c = "" \/
    exists j c', j < i /\ nth_error calls j = Some c' /\ c_result c' = Ok (c_prev c).
Proof.
  intros calls. assert (Hch : chained "" calls) by apply batch_loop_chained.
  split; [exact Hch|]. apply chained_provenance. exact Hch.
Qed.

(** Claim C10 as stated fails: page 1 has an image, its summary is
    returned, then the image request gets an empty [choices] list and
    raises [IndexError]; page 1 gets the error entry, yet page 2's
    summarization receives page 1's summary instead of [""]. *)
Lemma process_page_batch_prev_after_error_counterexample :
  nth_error (fst (process_page_batch image_failing_backend
                    [Some figure_page; Some (sample_page "Next")] [0; 1]
                    default_system_prompt (2 # 5)%Q)) 0 = Some (error_record 0) /\
  map c_prev (snd (process_page_batch image_failing_backend
                     [Some figure_page; Some (sample_page "Next")] [0; 1]
                     default_system_prompt (2 # 5)%Q)) = [""; "summary"].
Proof. split; vm_compute; reflexivity. Qed.

(* ------------------------------------------------------------------ *)
(** ** The system prompt *)

(** Claim C3 (the code is wrong): [generate_system_prompt] returns a
    [SystemPromptOutput] instance or a string, never a dict, so the
    [isinstance(system_prompt_data, dict)] test always fails and
    [process_pdf_pages] always uses the default system prompt; also when the
    persona was generated and parsed, as in [persona_env]. *)
Theorem process_pdf_pages_default_prompt :
  (forall e completed file_name,
     match process_pdf_pages e completed file_name with
     | Ok (_, system_prompt) => system_prompt = default_system_prompt
     | Raise _ => True
     end) /\
  generate_system_prompt (post persona_env) (parse_raw persona_env) "Wing loads"
    = Ok (PyModel sample_persona) /\
  (exists doc, process_pdf_pages persona_env (fun bs => bs) "report.pdf"
               = Ok (doc, default_system_prompt)).
Proof.
  split; [|split; [vm_compute; reflexivity|eexists; vm_compute; reflexivity]].
  intros e completed file_name. unfold process_pdf_pages.
  destruct (opened e) as [pdf|]; [|exact I].
  destruct (sample_content _ _ _); [|exact I].
  destruct (generate_system_prompt (post e) (parse_raw e) _) as [v|] eqn:Hg;
    [|exact I].
  unfold generate_system_prompt in Hg.
  destruct (post_and_extract _ _ _) as [s|[]]; try discriminate;
    try (inversion Hg; reflexivity).
  destruct (parse_raw e s); inversion Hg; reflexivity.
Qed.

(* ------------------------------------------------------------------ *)
(** ** The classifier *)

Lemma Qltb_true (x y : Q) : Qltb x y = true <-> (x < y)%Q.
Proof.
  unfold Qltb. rewrite negb_true_iff. split; intros H.
  - apply Qnot_le_lt. intros Hle. apply Qle_bool_iff in Hle. congruence.
  - destruct (Qle_bool y x) eqn:E; [|reflexivity].
    apply Qle_bool_iff in E. exfalso. apply (Qlt_not_le _ _ H E).
Qed.

Lemma Qltb_false (x y : Q) : Qltb x y = false <-> (y <= x)%Q.
Proof.
  unfold Qltb. rewrite negb_false_iff. apply Qle_bool_iff.
Qed.

(** The coverage is [0] when the text area is [0]. *)
Lemma text_coverage_zero (pg : pdf_page) :
  (text_area pg == 0)%Q ->
  exists cov, text_coverage pg = Ok cov /\ (cov == 0)%Q.
Proof.
  intros Hta. unfold text_coverage.
  destruct (Qltb 0 (page_area pg)) eqn:Hpos.
  - apply Qltb_true in Hpos. unfold py_div.
    destruct (Qeq_bool (page_area pg) 0) eqn:Hz.
    + apply Qeq_bool_iff in Hz. exfalso. rewrite Hz in Hpos. discriminate.
    + eexists. split; [reflexivity|]. rewrite Hta. unfold Qdiv. apply Qmult_0_l.
  - eexists. split; [reflexivity|]. reflexivity.
Qed.

(** Claim C4 (as amended): on a page with positive area and no text area,
    with a positive threshold and a page that renders, the classifier
    flags the page exactly when it has an embedded image or a vector
    drawing. *)
Theorem detect_no_text (pg : pdf_page) (thr : Q) :
  (0 < page_area pg)%Q -> (text_area pg == 0)%Q -> (0 < thr)%Q -> ppix pg <> None ->
  (detect_ocr_images_and_vector_graphics_in_pdf pg thr <> None
   <-> 0 < pimages pg \/ 0 < pdrawings pg).
Proof.
  intros _ Hta Hthr Hpix.
  destruct (text_coverage_zero pg Hta) as [cov [Hcov Hz]].
  unfold detect_ocr_images_and_vector_graphics_in_pdf. rewrite Hcov.
  destruct (ppix pg) as [img|]; [|congruence].
  assert (Hlt : Qltb cov thr = true) by (apply Qltb_true; rewrite Hz; exact Hthr).
  rewrite Hlt, andb_true_r.
  destruct (Nat.ltb 0 (pimages pg)) eqn:Hi; destruct (Nat.ltb 0 (pdrawings pg)) eqn:Hd;
    simpl; rewrite ?Nat.ltb_lt, ?Nat.ltb_ge in *; split; intros H;
    try congruence; try lia; try (left; lia); try (right; lia).
Qed.

Lemma detect_no_text_witness :
  (0 < page_area drawing_page)%Q /\ (text_area drawing_page == 0)%Q /\
   (0 < 2 # 5)%Q /\ ppix drawing_page <> None /\
   (detect_ocr_images_and_vector_graphics_in_pdf drawing_page (2 # 5) <> None
    <-> 0 < pimages drawing_page \/ 0 < pdrawings drawing_page).
Proof.
  assert (H1 : (0 < page_area drawing_page)%Q) by (vm_compute; reflexivity).
  assert (H2 : (text_area drawing_page == 0)%Q) by (vm_compute; reflexivity).
  assert (H3 : (0 < 2 # 5)%Q) by (vm_compute; reflexivity).
  assert (H4 : ppix drawing_page <> None) by discriminate.
  repeat split; try assumption.
  all: apply (detect_no_text drawing_page (2 # 5) H1 H2 H3 H4).
Defined.

(** Claim C4 as stated fails: a blank page of positive area with no text
    block is not flagged. *)
Lemma detect_no_text_counterexample :
  (0 < page_area blank_page)%Q /\ (text_area blank_page == 0)%Q /\
  detect_ocr_images_and_vector_graphics_in_pdf blank_page (2 # 5) = None.
Proof. vm_compute. repeat split; reflexivity. Qed.

(** Claim C5 (as amended): with no text area and neither an image nor a
    drawing the page is not flagged; with no text area and an embedded
    image it is flagged, for a positive threshold and a page that renders;
    a coverage equal to the threshold is not flagged ([<] is strict). *)
Theorem detect_boundaries (pg : pdf_page) (thr : Q) :
  ((text_area pg == 0)%Q -> pimages pg = 0 -> pdrawings pg = 0 ->
   detect_ocr_images_and_vector_graphics_in_pdf pg thr = None) /\
  ((text_area pg == 0)%Q -> 0 < pimages pg -> (0 < thr)%Q -> ppix pg <> None ->
   detect_ocr_images_and_vector_graphics_in_pdf pg thr <> None) /\
  (forall cov, text_coverage pg = Ok cov -> (cov == thr)%Q ->
   detect_ocr_images_and_vector_graphics_in_pdf pg thr = None).
Proof.
  unfold detect_ocr_images_and_vector_graphics_in_pdf. split; [|split].
  - intros _ Hi Hd. rewrite Hi, Hd. simpl.
    destruct (text_coverage pg); [|reflexivity].
    destruct (ppix pg); reflexivity.
  - intros Hta Hi Hthr Hpix.
    destruct (text_coverage_zero pg Hta) as [cov [Hcov Hz]]. rewrite Hcov.
    destruct (ppix pg) as [img|]; [|congruence].
    assert (Hlt : Qltb cov thr = true) by (apply Qltb_true; rewrite Hz; exact Hthr).
    rewrite Hlt. apply Nat.ltb_lt in Hi. rewrite Hi. simpl. discriminate.
  - intros cov Hcov Heq. rewrite Hcov.
    assert (Hge : Qltb cov thr = false) by (apply Qltb_false; rewrite Heq; apply Qle_refl).
    destruct (ppix pg); [|reflexivity]. rewrite Hge, andb_false_r. reflexivity.
Qed.

(** Claim C5 as stated fails: a page with no text area and no embedded
    image but a vector drawing is flagged. *)
Lemma detect_boundaries_counterexample :
  (text_area drawing_page == 0)%Q /\ pimages drawing_page = 0 /\
  detect_ocr_images_and_vector_graphics_in_pdf drawing_page (2 # 5) = Some "iVBORw0KGgo=".
Proof. vm_compute. repeat split; reflexivity. Qed.

(** The coverage of [utils/pdf_processing.py] never divides by zero, and is
    [0] on a page of zero area. *)
Lemma text_coverage_guarded (pg : pdf_page) :
  text_coverage pg <> Raise ZeroDivisionError /\
  ((page_area pg == 0)%Q -> text_coverage pg = Ok 0%Q).
Proof.
  unfold text_coverage. split.
  - destruct (Qltb 0 (page_area pg)) eqn:Hpos; [|discriminate].
    apply Qltb_true in Hpos. unfold py_div.
    destruct (Qeq_bool (page_area pg) 0) eqn:Hz; [|discriminate].
    apply Qeq_bool_iff in Hz. rewrite Hz in Hpos. discriminate.
  - intros Hz. destruct (Qltb 0 (page_area pg)) eqn:Hpos; [|reflexivity].
    apply Qltb_true in Hpos. rewrite Hz in Hpos. discriminate.
Qed.

(** Claim C6 (the code is wrong in one of the two classifiers): the
    classifier of [utils/pdf_processing.py] guards the division, but the one
    of the top-level [pdf_processing.py] divides by the page area
    unguarded and raises [ZeroDivisionError] on a zero-area page that has
    an image and some text. *)
Theorem detect_zero_area :
  (forall pg, text_coverage pg <> Raise ZeroDivisionError /\
              ((page_area pg == 0)%Q -> text_coverage pg = Ok 0%Q)) /\
  detect_ocr_images_and_vector_graphics_in_pdf flat_page (2 # 5) = Some "iVBORw0KGgo=" /\
  (page_area flat_page == 0)%Q /\
  detect_legacy [Some flat_page] 0 (9 # 50) = Raise ZeroDivisionError.
Proof.
  split; [apply text_coverage_guarded|]. vm_compute. repeat split; reflexivity.
Qed.

(* ------------------------------------------------------------------ *)
(** ** [ask_question] *)

(** Claim C8 (as amended): when the request fails in transport (connection
    error, timeout) or the response has a 4xx or 5xx status,
    [ask_question] raises its [Exception] instead of returning a value. *)
Theorem ask_question_raises (post : payload -> http_response)
    (documents : list (string * document_data)) (question : string)
    (chat_history : list (string * string)) :
  (post (ask_payload documents question chat_history) = ConnError \/
   post (ask_payload documents question chat_history) = TimeoutError \/
   exists status body, post (ask_payload documents question chat_history) = Resp status body
                       /\ (400 <= status < 600)%Z) ->
  snd (ask_question post documents question chat_history)
  = Raise (GenericException "Unable to answer the question due to network issues or API error.").
Proof.
  intros Hfail. unfold ask_question, post_and_extract. simpl.
  destruct Hfail as [->|[->|[status [body [-> [Hlo Hhi]]]]]]; try reflexivity.
  unfold raise_for_status.
  replace ((400 <=? status) && (status <? 600))%Z with true
    by (symmetry; apply andb_true_iff; split; [apply Z.leb_le|apply Z.ltb_lt]; lia).
  reflexivity.
Qed.

Lemma ask_question_raises_witness :
  (exists status body,
     (fun _ : payload => Resp 503 JInvalid) (ask_payload [] "What is the scope?" []) = Resp status body
     /\ (400 <= status < 600)%Z) /\
  snd (ask_question (fun _ => Resp 503 JInvalid) [] "What is the scope?" [])
  = Raise (GenericException "Unable to answer the question due to network issues or API error.").
Proof.
  assert (H : exists status body,
     (fun _ : payload => Resp 503 JInvalid) (ask_payload [] "What is the scope?" []) = Resp status body
     /\ (400 <= status < 600)%Z) by (exists 503%Z, JInvalid; split; [reflexivity|lia]).
  split; [exact H|].
  apply (ask_question_raises (fun _ => Resp 503 JInvalid) [] "What is the scope?" []).
  right; right. exact H.
Defined.

(** Claim C8 as stated fails: a final 302 response (a redirect without a
    [Location] header) is not 2xx, yet [raise_for_status] lets it through
    and [ask_question] returns the answer in its body. *)
Lemma ask_question_raises_counterexample :
  snd (ask_question (fun _ => Resp 302 (JObj (Some [Some "The scope is wings."])))
         [] "What is the scope?" [])
  = Ok "The scope is wings.".
Proof. vm_compute. reflexivity. Qed.

(* ------------------------------------------------------------------ *)
(** ** The prompt does not depend on the schedule *)

Lemma sorted_perm_unique (a b : list page_rec) :
  Permutation a b -> Sorted page_le a -> Sorted page_le b ->
  NoDup (map page_number a) -> a = b.
Proof.
  revert b. induction a as [|x a' IH]; intros b Hp Ha Hb Hnd.
  - symmetry. apply Permutation_nil. exact Hp.
  - destruct b as [|y b'].
    + apply Permutation_sym, Permutation_nil in Hp. discriminate.
    + assert (Hxy : x = y).
      { apply Sorted_StronglySorted in Ha; [|intros u v w; unfold page_le; lia].
        apply Sorted_StronglySorted in Hb; [|intros u v w; unfold page_le; lia].
        assert (Hy : In y (x :: a')) by (eapply Permutation_in; [symmetry; exact Hp|left; reflexivity]).
        destruct Hy as [Hy|Hy]; [exact Hy|].
        assert (Hx : In x (y :: b')) by (eapply Permutation_in; [exact Hp|left; reflexivity]).
        destruct Hx as [Hx|Hx]; [symmetry; exact Hx|].
        apply StronglySorted_inv in Ha as [_ Ha]. apply StronglySorted_inv in Hb as [_ Hb].
        rewrite Forall_forall in Ha, Hb. specialize (Ha y Hy). specialize (Hb x Hx).
        unfold page_le in *. simpl in Hnd. apply NoDup_cons_iff in Hnd as [Hnd _].
        exfalso. apply Hnd. replace (page_number x) with (page_number y) by lia.
        apply in_map. exact Hy. }
      subst y. f_equal. apply IH.
      * eapply Permutation_cons_inv. exact Hp.
      * apply Sorted_inv in Ha. apply Ha.
      * apply Sorted_inv in Hb. apply Hb.
      * simpl in Hnd. apply NoDup_cons_iff in Hnd. apply Hnd.
Qed.

Lemma sorted_collected_numbers post pdf sp thr (bs : list (list nat)) (total : nat) :
  Permutation bs (page_batches total) ->
  map page_number (sort_by_page
     (flat_map (fun b => fst (process_page_batch post pdf b sp thr)) bs))
  = seq 1 total.
Proof.
  intros Hp. apply sorted_perm_seq.
  - apply sorted_numbers, sort_by_page_spec.
  - rewrite (proj1 (sort_by_page_spec _)).
    rewrite (Permutation_map page_number
               (Permutation_flat_map (fun b => fst (process_page_batch post pdf b sp thr)) Hp)).
    rewrite collected_numbers, page_batches_concat, seq_shift. reflexivity.
Qed.

(** Claim C9: [ask_question] posts a payload that is a function of the
    documents, the chat history and the question only: two calls agree on
    it whatever the backend answers; and the document record the pipeline
    builds, hence that payload, does not depend on the order in which the
    batches completed. *)
Theorem ask_question_payload_deterministic :
  (forall (post1 post2 : payload -> http_response)
          (documents : list (string * document_data)) (question : string)
          (chat_history : list (string * string)),
     fst (ask_question post1 documents question chat_history)
     = fst (ask_question post2 documents question chat_history)) /\
  (forall (e : env) (completed1 completed2 : list (list nat) -> list (list nat))
          (file_name : string),
     (forall bs, Permutation (completed1 bs) bs) ->
     (forall bs, Permutation (completed2 bs) bs) ->
     process_pdf_pages e completed1 file_name = process_pdf_pages e completed2 file_name).
Proof.
  split; [reflexivity|].
  intros e c1 c2 file_name H1 H2. unfold process_pdf_pages.
  destruct (opened e) as [pdf|]; [|reflexivity].
  destruct (sample_content _ _ _); [|reflexivity].
  destruct (generate_system_prompt _ _ _) as [v|]; [|reflexivity].
  do 3 f_equal.
  set (f := fun b => fst (process_page_batch (post e) pdf b (build_system_prompt v) (2 # 5)%Q)).
  set (bs := page_batches (length pdf)).
  apply sorted_perm_unique.
  - rewrite (proj1 (sort_by_page_spec _)), (proj1 (sort_by_page_spec _)).
    apply Permutation_flat_map. rewrite (H1 bs), (H2 bs). reflexivity.
  - apply sort_by_page_spec.
  - apply sort_by_page_spec.
  - unfold f. rewrite (sorted_collected_numbers _ _ _ _ _ (length pdf) (H1 bs)).
    apply seq_NoDup.
Qed.

(* ------------------------------------------------------------------ *)
(** ** [remove_stopwords_and_blanks] *)

Lemma str_append_assoc (a b c : string) : a ++ (b ++ c) = (a ++ b) ++ c.
Proof. induction a as [|x r IH]; simpl; [reflexivity|rewrite IH; reflexivity]. Qed.

Lemma str_append_nil_r (a : string) : a ++ "" = a.
Proof. induction a as [|x r IH]; simpl; [reflexivity|rewrite IH; reflexivity]. Qed.

Lemma rev_string_app (s acc : string) : rev_string s acc = rev_string s "" ++ acc.
Proof.
  revert acc. induction s as [|c r IH]; intros acc; [reflexivity|].
  simpl. rewrite (IH (String c acc)), (IH (String c "")).
  rewrite <- str_append_assoc. reflexivity.
Qed.

Lemma rev_string_append (a b acc : string) :
  rev_string (a ++ b) acc = rev_string b (rev_string a acc).
Proof.
  revert acc. induction a as [|c r IH]; intros acc; [reflexivity|]. simpl. apply IH.
Qed.

Lemma rev_string_involutive (s : string) : rev_string (rev_string s "") "" = s.
Proof.
  induction s as [|c r IH]; [reflexivity|]. simpl.
  rewrite (rev_string_app r (String c "")), rev_string_append. simpl. rewrite IH. reflexivity.
Qed.

Lemma rev_string_nonempty (s : string) : s <> "" -> rev_string s "" <> "".
Proof.
  destruct s as [|c r]; [congruence|]. intros _. simpl. rewrite rev_string_app.
  destruct (rev_string r ""); discriminate.
Qed.

Lemma no_space_rev (s acc : string) :
  no_space (rev_string s acc) = no_space s && no_space acc.
Proof.
  revert acc. induction s as [|c r IH]; intros acc; [reflexivity|].
  simpl. rewrite IH. simpl. destruct (is_space c), (no_space r), (no_space acc); reflexivity.
Qed.

Lemma split_words_app (w s cur : string) :
  no_space w = true -> split_words (w ++ s) cur = split_words s (rev_string w cur).
Proof.
  revert cur. induction w as [|c r IH]; intros cur Hw; [reflexivity|].
  simpl in Hw |- *. apply andb_true_iff in Hw as [Hc Hr].
  apply negb_true_iff in Hc. rewrite Hc. apply IH. exact Hr.
Qed.

Definition word_ok (w : string) : Prop := w <> "" /\ no_space w = true.

Lemma split_words_ok (s cur : string) :
  no_space cur = true -> Forall word_ok (split_words s cur).
Proof.
  revert cur. induction s as [|c r IH]; intros cur Hcur; simpl.
  - destruct cur as [|c' r']; constructor; [|constructor].
    split; [apply rev_string_nonempty; discriminate|].
    rewrite no_space_rev. rewrite Hcur. reflexivity.
  - destruct (is_space c) eqn:Hc.
    + destruct cur as [|c' r']; [apply IH; reflexivity|].
      constructor; [|apply IH; reflexivity].
      split; [apply rev_string_nonempty; discriminate|].
      rewrite no_space_rev, Hcur. reflexivity.
    + apply IH. simpl. rewrite Hc, Hcur. reflexivity.
Qed.

Lemma split_join (ws : list string) :
  Forall word_ok ws -> split_words (join " " ws) "" = ws.
Proof.
  induction ws as [|w r IH]; intros Hws; [reflexivity|].
  inversion Hws as [|? ? [Hne Hns] Hr]; subst.
  destruct r as [|w2 r2].
  - simpl. rewrite <- (str_append_nil_r w) at 1.
    rewrite split_words_app by exact Hns. simpl.
    destruct (rev_string w "") eqn:E; [exfalso; exact (rev_string_nonempty w Hne E)|].
    rewrite <- E, rev_string_involutive. reflexivity.
  - change (join " " (w :: w2 :: r2)) with (w ++ " " ++ join " " (w2 :: r2)).
    rewrite split_words_app by exact Hns. simpl.
    destruct (rev_string w "") eqn:E; [exfalso; exact (rev_string_nonempty w Hne E)|].
    rewrite <- E, rev_string_involutive. f_equal. apply IH. exact Hr.
Qed.

(** [remove_stopwords_and_blanks] is idempotent: cleaning a cleaned text
    changes nothing. *)
Theorem remove_stopwords_and_blanks_idempotent (text : string) :
  remove_stopwords_and_blanks (remove_stopwords_and_blanks text)
  = remove_stopwords_and_blanks text.
Proof.
  unfold remove_stopwords_and_blanks. rewrite split_join; [reflexivity|].
  apply split_words_ok. reflexivity.
Qed.

(* ------------------------------------------------------------------ *)
(** ** The context of [ask_question] *)

Lemma fold_page_blocks (ps : list page_rec) (acc : string) :
  fold_left (fun acc' page => acc' ++ page_block page) ps acc
  = acc ++ fold_left (fun acc' page => acc' ++ page_block page) ps "".
Proof.
  revert acc. induction ps as [|pg ps IH]; intros acc; simpl.
  - rewrite str_append_nil_r. reflexivity.
  - rewrite IH, (IH (page_block pg)). symmetry. apply str_append_assoc.
Qed.

Lemma fold_documents (docs : list (string * document_data)) (acc : string) :
  fold_left (fun acc '(_, doc_data) =>
               fold_left (fun acc' page => acc' ++ page_block page) (pages doc_data) acc)
            docs acc
  = acc ++ combined_content docs.
Proof.
  unfold combined_content. revert acc.
  induction docs as [|[name d] docs IH]; intros acc; simpl.
  - rewrite str_append_nil_r. reflexivity.
  - rewrite IH, (IH (fold_left _ (pages d) "")), fold_page_blocks.
    symmetry. apply str_append_assoc.
Qed.

(** The context [ask_question] builds is the concatenation, in the dict's
    order, of the page blocks of each document: the contexts of two
    document lists put one after the other. *)
Theorem combined_content_app (d1 d2 : list (string * document_data)) :
  combined_content (d1 ++ d2) = combined_content d1 ++ combined_content d2.
Proof.
  unfold combined_content at 1. rewrite fold_left_app.
  change (fold_left _ d1 "") with (combined_content d1).
  apply fold_documents.
Qed.

(** The page blocks never mention the document's name: renaming the
    documents leaves the payload [ask_question] posts unchanged, so the
    model cannot tell which document a page came from. *)
Theorem ask_payload_ignores_names (rename : string -> string)
    (documents : list (string * document_data)) (question : string)
    (chat_history : list (string * string)) :
  ask_payload (map (fun '(n, d) => (rename n, d)) documents) question chat_history
  = ask_payload documents question chat_history.
Proof.
  assert (Hc : combined_content (map (fun '(n, d) => (rename n, d)) documents)
               = combined_content documents).
  { induction documents as [|[n d] docs IH]; [reflexivity|].
    change ((n, d) :: docs) with ([(n, d)] ++ docs)%list.
    rewrite map_app, !combined_content_app, IH. reflexivity. }
  unfold ask_payload, ask_prompt. rewrite Hc. reflexivity.
Qed.

Example ask_payload_renamed_ex :
  combined_content [("a.pdf", {| document_name := "a.pdf"; pages := [error_record 0] |})]
  = "Page 1" ++ nl ++ "Full Text: " ++ nl ++ "Summary: Error in processing this page" ++ nl
    ++ "Image Analysis: No image analysis." ++ nl ++ nl.
Proof. reflexivity. Qed.

(* ------------------------------------------------------------------ *)
(** ** More on the classifiers *)

(* The guard of the classifier, read back from a flagged result. *)
Lemma detect_some_inv (pg : pdf_page) (thr : Q) (img : string) :
  detect_ocr_images_and_vector_graphics_in_pdf pg thr = Some img ->
  ppix pg = Some img /\ (0 < pimages pg \/ 0 < pdrawings pg) /\
  exists cov, text_coverage pg = Ok cov /\ (cov < thr)%Q.
Proof.
  unfold detect_ocr_images_and_vector_graphics_in_pdf.
  destruct (text_coverage pg) as [cov|]; [|discriminate].
  destruct (ppix pg) as [b|]; [|discriminate].
  destruct (Nat.ltb 0 (pimages pg) || Nat.ltb 0 (pdrawings pg)) eqn:Hid;
    destruct (Qltb cov thr) eqn:Hc; simpl; intros H; try discriminate.
  inversion H; subst. apply Qltb_true in Hc.
  split; [reflexivity|]. split; [|exists cov; split; [reflexivity|exact Hc]].
  apply orb_true_iff in Hid as [Hi|Hi]; apply Nat.ltb_lt in Hi; [left|right]; exact Hi.
Qed.

(** Raising the threshold never unflags a page. *)
Theorem detect_threshold_monotone (pg : pdf_page) (thr thr' : Q) (img : string) :
  (thr <= thr')%Q ->
  detect_ocr_images_and_vector_graphics_in_pdf pg thr = Some img ->
  detect_ocr_images_and_vector_graphics_in_pdf pg thr' = Some img.
Proof.
  intros Hle Hd. destruct (detect_some_inv _ _ _ Hd) as [Hpix [Hid [cov [Hcov Hlt]]]].
  unfold detect_ocr_images_and_vector_graphics_in_pdf. rewrite Hcov, Hpix.
  assert (Hlt' : Qltb cov thr' = true) by (apply Qltb_true; eapply Qlt_le_trans; eassumption).
  rewrite Hlt'. destruct Hid as [Hi|Hi]; apply Nat.ltb_lt in Hi; rewrite Hi;
    [reflexivity|rewrite orb_true_r; reflexivity].
Qed.

Lemma detect_threshold_monotone_witness :
  (2 # 5 <= 1)%Q /\
  detect_ocr_images_and_vector_graphics_in_pdf figure_page (2 # 5) = Some "iVBORw0KGgo=" /\
  detect_ocr_images_and_vector_graphics_in_pdf figure_page 1 = Some "iVBORw0KGgo=".
Proof.
  assert (H1 : (2 # 5 <= 1)%Q) by (vm_compute; discriminate).
  assert (H2 : detect_ocr_images_and_vector_graphics_in_pdf figure_page (2 # 5)
               = Some "iVBORw0KGgo=") by (vm_compute; reflexivity).
  split; [exact H1|]. split; [exact H2|].
  exact (detect_threshold_monotone figure_page (2 # 5) 1 _ H1 H2).
Defined.


(* ------------------------------------------------------------------ *)
(** ** The entries and calls of a batch *)

Lemma page_body_call_pages post pdf sp thr n prev :
  map c_page (snd (fst (page_body post pdf sp thr n prev)))
  = if page_loads pdf n then [S n] else [].
Proof.
  unfold page_body, page_loads.
  destruct (load_page pdf n); [|reflexivity].
  destruct (summarize_page _ _ _ _ _); [|reflexivity].
  destruct (detect_ocr_images_and_vector_graphics_in_pdf _ _) as [img|];
    [destruct (str_truthy img); [destruct (get_image_explanation _ _)|]|]; reflexivity.
Qed.

Lemma batch_loop_call_pages_loadable post pdf sp thr prev batch :
  map c_page (snd (batch_loop post pdf sp thr prev batch))
  = map S (filter (page_loads pdf) batch).
Proof.
  revert prev. induction batch as [|n rest IH]; intros prev; [reflexivity|].
  simpl. pose proof (page_body_call_pages post pdf sp thr n prev) as Hc.
  destruct (page_body post pdf sp thr n prev) as [[prev' cs] out] eqn:Hb.
  specialize (IH prev').
  destruct (batch_loop post pdf sp thr prev' rest) as [entries cs'] eqn:Hl.
  simpl in *. rewrite map_app, Hc, IH.
  destruct (page_loads pdf n); reflexivity.
Qed.

(** [process_page_batch] summarizes every page of the batch that loads,
    once and in the batch's order, and no other page: a page whose
    [load_page] raises never reaches the backend. *)
Theorem process_page_batch_call_pages (post : payload -> http_response)
    (pdf : pdf_doc) (batch : list nat) (system_prompt : content) (thr : Q) :
  map c_page (snd (process_page_batch post pdf batch system_prompt thr))
  = map S (filter (page_loads pdf) batch).
Proof. apply batch_loop_call_pages_loadable. Qed.

(* ------------------------------------------------------------------ *)
(** ** The older gateway *)

(** The question context of the older [ask_question] is built from the
    document names and the pages' [text_summary] only: the full text and
    the image analysis of the pages never reach the payload. *)
Theorem azure_api_ask_payload_summaries
    (documents documents' : list (string * document_data)) (question : string) :
  map (fun '(n, d) => (n, map text_summary (pages d))) documents
  = map (fun '(n, d) => (n, map text_summary (pages d))) documents' ->
  azure_api.ask_payload documents question = azure_api.ask_payload documents' question.
Proof.
  intros Hs.
  assert (Hc : forall ds, azure_api.combined_content ds
     = join (nl ++ nl) (map (fun '(n, ss) => "Document: " ++ n ++ nl ++ join nl ss)
                            (map (fun '(n, d) => (n, map text_summary (pages d))) ds))).
  { intros ds. unfold azure_api.combined_content. rewrite map_map. f_equal.
    apply map_ext. intros [n d]. reflexivity. }
  unfold azure_api.ask_payload, azure_api.ask_prompt. rewrite !Hc, Hs. reflexivity.
Qed.

Lemma azure_api_ask_payload_summaries_witness :
  map (fun '(n, d) => (n, map text_summary (pages d)))
      [("a.pdf", {| document_name := "a.pdf";
                    pages := [ {| page_number := 1; full_text := "Wing loads";
                                  text_summary := "Loads."; image_analysis := [] |} ] |})]
  = map (fun '(n, d) => (n, map text_summary (pages d)))
      [("a.pdf", {| document_name := "a.pdf";
                    pages := [ {| page_number := 1; full_text := "";
                                  text_summary := "Loads.";
                                  image_analysis := [(1, "A chart.")] |} ] |})] /\
  azure_api.ask_payload
      [("a.pdf", {| document_name := "a.pdf";
                    pages := [ {| page_number := 1; full_text := "Wing loads";
                                  text_summary := "Loads."; image_analysis := [] |} ] |})]
      "Which loads?"
  = azure_api.ask_payload
      [("a.pdf", {| document_name := "a.pdf";
                    pages := [ {| page_number := 1; full_text := "";
                                  text_summary := "Loads.";
                                  image_analysis := [(1, "A chart.")] |} ] |})]
      "Which loads?".
Proof.
  assert (H : map (fun '(n, d) => (n, map text_summary (pages d)))
      [("a.pdf", {| document_name := "a.pdf";
                    pages := [ {| page_number := 1; full_text := "Wing loads";
                                  text_summary := "Loads."; image_analysis := [] |} ] |})]
    = map (fun '(n, d) => (n, map text_summary (pages d)))
      [("a.pdf", {| document_name := "a.pdf";
                    pages := [ {| page_number := 1; full_text := "";
                                  text_summary := "Loads.";
                                  image_analysis := [(1, "A chart.")] |} ] |})])
    by reflexivity.
  split; [exact H|]. exact (azure_api_ask_payload_summaries _ _ "Which loads?" H).
Defined.

(* ------------------------------------------------------------------ *)
(** ** The two classifiers compared *)

(** For a positive threshold, the classifier of [utils/pdf_processing.py]
    flags every page the older one flags, with the same image: the older
    one asks for non-empty text on top of the newer one's conditions. *)
Theorem detect_legacy_implies_utils (pdf : pdf_doc) (n : nat) (thr : Q) (m : nat)
    (img : string) :
  (0 < thr)%Q ->
  detect_legacy pdf n thr = Ok (Some (m, img)) ->
  exists pg, load_page pdf n = Ok pg /\
             detect_ocr_images_and_vector_graphics_in_pdf pg thr = Some img.
Proof.
  intros Hthr. unfold detect_legacy.
  destruct (load_page pdf n) as [pg|]; [|discriminate].
  destruct ((Nat.ltb 0 (pimages pg) || Nat.ltb 0 (pdrawings pg)) && str_truthy (strip (ptext pg)))
    eqn:Hg; [|discriminate].
  destruct (py_div (text_area pg) (page_area pg)) as [cov|] eqn:Hdiv; [|discriminate].
  destruct (Qltb cov thr) eqn:Hc; [|discriminate].
  destruct (ppix pg) as [b|] eqn:Hp; [|discriminate].
  intros H. inversion H; subst. exists pg. split; [reflexivity|].
  apply andb_true_iff in Hg as [Hid _].
  unfold detect_ocr_images_and_vector_graphics_in_pdf, text_coverage.
  destruct (Qltb 0 (page_area pg)).
  - rewrite Hdiv, Hp, Hid, Hc. reflexivity.
  - rewrite Hp, Hid. apply Qltb_true in Hthr. rewrite Hthr. reflexivity.
Qed.

Lemma detect_legacy_implies_utils_witness :
  (0 < 9 # 50)%Q /\
  detect_legacy [Some figure_page] 0 (9 # 50) = Ok (Some (1, "iVBORw0KGgo=")) /\
  exists pg, load_page [Some figure_page] 0 = Ok pg /\
             detect_ocr_images_and_vector_graphics_in_pdf pg (9 # 50) = Some "iVBORw0KGgo=".
Proof.
  assert (H1 : (0 < 9 # 50)%Q) by reflexivity.
  assert (H2 : detect_legacy [Some figure_page] 0 (9 # 50) = Ok (Some (1, "iVBORw0KGgo=")))
    by (vm_compute; reflexivity).
  split; [exact H1|]. split; [exact H2|].
  exact (detect_legacy_implies_utils _ 0 (9 # 50) 1 _ H1 H2).
Defined.

(* ------------------------------------------------------------------ *)
(** ** The persona dict *)

Lemma dict_get_skip (kv1 kv2 : list (string * string)) (k k' v d : string) :
  k <> k' -> dict_get (kv1 ++ (k', v) :: kv2) k d = dict_get (kv1 ++ kv2) k d.
Proof.
  intros Hk. induction kv1 as [|[k1 v1] kv1 IH]; simpl.
  - apply String.eqb_neq in Hk. rewrite Hk. reflexivity.
  - rewrite IH. reflexivity.
Qed.

(** The dict branch of [process_pdf_pages] reads the ["document"] key but
    never uses it: adding that key anywhere in the dict leaves the system
    prompt unchanged. *)
Theorem build_system_prompt_ignores_document (kv1 kv2 : list (string * string)) (v : string) :
  build_system_prompt (PyDict (kv1 ++ ("document", v) :: kv2))
  = build_system_prompt (PyDict (kv1 ++ kv2)).
Proof.
  unfold build_system_prompt.
  rewrite !dict_get_skip by discriminate. reflexivity.
Qed.
